(** * pypiuploader.download: a shallow embedding of [PackageDownloader]

    The module under study is [src/pypiuploader/download.py].  It holds one
    exception class, [PackageDownloadErr], and one class,
    [PackageDownloader], whose [download] method

    - materialises the destination directory ([_make_download_dir]),
    - builds the argument list for pip ([_build_args]),
    - calls [pip.main] and inspects the status it returns,
    - returns the generator [_list_download_dir].

    Everything the module imports ([os], [tempfile], [pip],
    [pip._vendor.packaging.version]) is library code.  It is kept abstract,
    as the operations of a type class [Platform], so that every theorem holds
    whatever the operating system and the installed pip do.  A small
    simulated platform at the end of the definitions is used to run the
    model on concrete inputs. *)

From Stdlib Require Import String Ascii List ZArith Bool Lia DecimalString.
Import ListNotations.
Open Scope string_scope.

(** ** Python values and exceptions *)

(** The values that end up in an argument list: strings, and [None] (the
    value of [self.download_path] before it has been resolved). *)
Inductive pyval : Type :=
| PyNone
| PyStr (s : string).

Module Fmt.

(** ['%d' % n] for an integer. *)
Definition percent_d (n : Z) : string := NilZero.string_of_int (Z.to_int n).

Definition hex_digit (n : nat) : ascii :=
  match n with
  | 0 => "0" | 1 => "1" | 2 => "2" | 3 => "3" | 4 => "4" | 5 => "5"
  | 6 => "6" | 7 => "7" | 8 => "8" | 9 => "9" | 10 => "a" | 11 => "b"
  | 12 => "c" | 13 => "d" | 14 => "e" | _ => "f"
  end%char.

Fixpoint contains (c : ascii) (s : string) : bool :=
  match s with
  | EmptyString => false
  | String x r => Ascii.eqb x c || contains c r
  end.

Definition backslash : ascii := ascii_of_nat 92.
Definition squote : ascii := ascii_of_nat 39.
Definition dquote : ascii := ascii_of_nat 34.

(** One character of [repr] of a byte string, inside the quote [q]. *)
Definition repr_char (q c : ascii) : string :=
  let n := nat_of_ascii c in
  if Ascii.eqb c q || Ascii.eqb c backslash
  then String backslash (String c EmptyString)
  else if Nat.eqb n 9 then String backslash "t"
  else if Nat.eqb n 10 then String backslash "n"
  else if Nat.eqb n 13 then String backslash "r"
  else if Nat.ltb n 32 || Nat.leb 127 n
  then String backslash
         (String "x" (String (hex_digit (n / 16))
                        (String (hex_digit (n mod 16)) EmptyString)))
  else String c EmptyString.

Fixpoint repr_chars (q : ascii) (s : string) : string :=
  match s with
  | EmptyString => EmptyString
  | String c r => repr_char q c ++ repr_chars q r
  end.

(** [repr] of a byte string: single quotes, unless the string holds a
    single quote and no double quote. *)
Definition repr_str (s : string) : string :=
  let q := if contains squote s && negb (contains dquote s)
           then dquote else squote in
  String q (repr_chars q s ++ String q EmptyString).

Definition repr (v : pyval) : string :=
  match v with
  | PyNone => "None"
  | PyStr s => repr_str s
  end.

(** ['%s' % l] for a list [l]: the list's [repr]. *)
Definition percent_s_list (l : list pyval) : string :=
  "[" ++ String.concat ", " (map repr l) ++ "]".

End Fmt.

(** [class PackageDownloadErr(Exception)]: the three attributes that
    [__init__] sets.  Python stores [self.args] as a tuple holding the
    elements of the list it is given; the model keeps the sequence of
    elements. *)
Record PackageDownloadErr : Type := mkPackageDownloadErr {
  status : Z;
  args : list pyval;
  message : string
}.

Definition PackageDownloadErr___init__ (status : Z) (args : list pyval)
  : PackageDownloadErr :=
  {| status := status;
     args := args;
     message := "package failed download, exit " ++ Fmt.percent_d status
                ++ ". Arguments: " ++ Fmt.percent_s_list args |}.

Inductive exn : Type :=
| ValueError (msg : string)
| OSError (errno : Z)
| TypeError
| DownloadErr (e : PackageDownloadErr)
| OtherException (name : string).

Definition is_OSError (e : exn) : bool :=
  match e with OSError _ => true | _ => false end.

Inductive outcome (A : Type) : Type :=
| Return (a : A)
| Raise (e : exn).
Arguments Return {A} a.
Arguments Raise {A} e.

(** [pip.status_codes.SUCCESS]. *)
Definition SUCCESS : Z := 0.

(** [errno.EEXIST], [errno.EACCES] and [errno.ENOENT] on Linux. *)
Definition EEXIST : Z := 17.
Definition EACCES : Z := 13.
Definition ENOENT : Z := 2.

(** ** [os.path.join] and [os.path.isabs] (posixpath), two arguments *)

Definition startswith_sep (s : string) : bool :=
  match s with
  | String c _ => Ascii.eqb c "/"
  | EmptyString => false
  end.

Fixpoint endswith_sep (s : string) : bool :=
  match s with
  | EmptyString => false
  | String c EmptyString => Ascii.eqb c "/"
  | String _ r => endswith_sep r
  end.

Definition os_path_join (a b : string) : string :=
  if startswith_sep b then b
  else if match a with EmptyString => true | _ => endswith_sep a end
       then a ++ b
       else a ++ "/" ++ b.

Definition os_path_isabs (s : string) : bool := startswith_sep s.

(** ** The platform: operating system, temporary files and pip *)

Class Platform (W : Type) : Type := {
  (** [pip._vendor.packaging.version]: parsed versions and their order. *)
  Version : Type;
  parse_version : string -> Version;
  version_lt : Version -> Version -> bool;
  (** [pip.__version__] of the installed pip. *)
  pip___version__ : W -> string;
  (** [pip.main(args)]: runs the tool, returns its status. *)
  pip_main : list pyval -> W -> W * Z;
  (** [tempfile.mkdtemp()]. *)
  tempfile_mkdtemp : W -> W * outcome string;
  (** [os.makedirs(path)]: [None] when it returns, [Some e] when it raises. *)
  os_makedirs : string -> W -> W * option exn;
  (** [os.listdir(path)]. *)
  os_listdir : string -> W -> outcome (list string);
  (** [os.path.isfile(path)]. *)
  os_path_isfile : string -> W -> bool
}.

(** Calls that can change the file system or start the external tool, in the
    order they were made. *)
Inductive event : Type :=
| EvMkdtemp
| EvMakedirs (path : string)
| EvPipMain (args : list pyval) (status : Z).

Definition is_fs_event (ev : event) : bool :=
  match ev with EvMkdtemp | EvMakedirs _ => true | EvPipMain _ _ => false end.

(** [class PackageDownloader(object)]: its one attribute. *)
Record PackageDownloader : Type := mkPackageDownloader {
  download_path : pyval
}.

(** [PackageDownloader.__init__(self, download_path=None)]. *)
Definition PackageDownloader___init__ (download_path : option string)
  : PackageDownloader :=
  {| download_path := match download_path with
                      | Some p => PyStr p
                      | None => PyNone
                      end |}.

(** What a directory entry is: a regular file (or a link to one), a
    directory, or anything else (socket, fifo, dangling link). *)
Inductive kind : Type := RegularFile | Directory | Special.

Definition is_regular (k : kind) : bool :=
  match k with RegularFile => true | _ => false end.

Section Downloader.

Context {W : Type} {P : Platform W}.

(** The state a method runs in: the instance, the world outside, and the
    log of the effectful calls made so far. *)
Record state : Type := mkState {
  self : PackageDownloader;
  world : W;
  trace : list event
}.

(** A Python computation: it ends in a state, by returning or raising. *)
Definition Py (A : Type) : Type := state -> state * outcome A.

Definition ret {A} (a : A) : Py A := fun st => (st, Return a).

Definition raise {A} (e : exn) : Py A := fun st => (st, Raise e).

Definition bind {A B} (c : Py A) (k : A -> Py B) : Py B :=
  fun st =>
    match c st with
    | (st', Return a) => k a st'
    | (st', Raise e) => (st', Raise e)
    end.

(** [try: c  except OSError: h]. *)
Definition try_except_OSError {A} (c : Py A) (h : Py A) : Py A :=
  fun st =>
    match c st with
    | (st', Raise e) => if is_OSError e then h st' else (st', Raise e)
    | r => r
    end.

Notation "x <- c ;; k" := (bind c (fun x => k))
  (at level 61, c at next level, right associativity).
Notation "c ;;; k" := (bind c (fun _ => k))
  (at level 61, right associativity).

Definition get_download_path : Py pyval :=
  fun st => (st, Return (download_path (self st))).

Definition set_download_path (v : pyval) : Py unit :=
  fun st => ({| self := {| download_path := v |};
                world := world st;
                trace := trace st |}, Return tt).

Definition get_pip_version : Py string :=
  fun st => (st, Return (pip___version__ (world st))).

Definition call_mkdtemp : Py string :=
  fun st =>
    let '(w, r) := tempfile_mkdtemp (world st) in
    ({| self := self st; world := w; trace := (trace st ++ [EvMkdtemp])%list |}, r).

Definition call_makedirs (p : string) : Py unit :=
  fun st =>
    let '(w, r) := os_makedirs p (world st) in
    ({| self := self st; world := w; trace := (trace st ++ [EvMakedirs p])%list |},
     match r with None => Return tt | Some e => Raise e end).

Definition call_pip_main (a : list pyval) : Py Z :=
  fun st =>
    let '(w, s) := pip_main a (world st) in
    ({| self := self st; world := w; trace := (trace st ++ [EvPipMain a s])%list |},
     Return s).

Definition call_listdir (p : string) : Py (list string) :=
  fun st => (st, os_listdir p (world st)).

Definition call_isfile (p : string) : Py bool :=
  fun st => (st, Return (os_path_isfile p (world st))).

(** *** [PackageDownloader._make_download_dir] *)
Definition _make_download_dir : Py unit :=
  p <- get_download_path ;;
  match p with
  | PyNone =>
      d <- call_mkdtemp ;;
      set_download_path (PyStr d)
  | PyStr path =>
      try_except_OSError (call_makedirs path) (ret tt)
  end.

(** *** [PackageDownloader._build_args] *)
Definition _build_args (requirements : option (list string))
    (requirements_file : option string) (no_use_wheel : bool)
  : Py (list pyval) :=
  v <- get_pip_version ;;
  let pip_command :=
    if version_lt (parse_version v) (parse_version "8.0.0")
    then "install" else "download" in
  p <- get_download_path ;;
  let args := [PyStr pip_command; PyStr "-d"; p] in
  let args := if no_use_wheel then (args ++ [PyStr "--no-use-wheel"])%list
              else args in
  match requirements with
  | Some rs => ret (args ++ map PyStr rs)%list
  | None =>
      match requirements_file with
      | Some f => ret (args ++ [PyStr "-r"; PyStr f])%list
      | None =>
          let error :=
            "Either requirements or requirements_file must be given." in
          raise (ValueError error)
      end
  end.

(** *** [PackageDownloader._list_download_dir]

    The body of the generator, run to exhaustion.  [os.listdir(None)] is
    modelled as a [TypeError]; [download] never reaches it. *)
Fixpoint list_loop (dir : string) (names : list string)
  : Py (list string) :=
  match names with
  | [] => ret []
  | filename :: rest =>
      let fullpath := os_path_join dir filename in
      b <- call_isfile fullpath ;;
      ys <- list_loop dir rest ;;
      ret (if b then fullpath :: ys else ys)
  end.

Definition _list_download_dir : Py (list string) :=
  p <- get_download_path ;;
  match p with
  | PyNone => raise TypeError
  | PyStr dir =>
      names <- call_listdir dir ;;
      list_loop dir names
  end.

(** A generator object: the suspended body, bound to the instance it was
    created on.  Nothing runs until the caller iterates. *)
Definition generator : Type := Py (list string).

(** *** [PackageDownloader.download] *)
Definition download (requirements : option (list string))
    (requirements_file : option string) (no_use_wheel : bool)
  : Py generator :=
  _make_download_dir ;;;
  args <- _build_args requirements requirements_file no_use_wheel ;;
  pip_result <- call_pip_main args ;;
  if negb (pip_result =? SUCCESS)%Z
  then raise (DownloadErr (PackageDownloadErr___init__ pip_result args))
  else ret _list_download_dir.

(** *** Vocabulary of the properties *)

(** The events a computation appends to the log. *)
Definition events_of {A} (c : Py A) (st : state) : list event :=
  skipn (length (trace st)) (trace (fst (c st))).

(** The installed pip is older than 8.0.0. *)
Definition below_8 (w : W) : bool :=
  version_lt (parse_version (pip___version__ w)) (parse_version "8.0.0").

(** The outcome of [_build_args] as one expression of the instance, the
    world and the three arguments ([_build_args_run] below). *)
Definition built (st : state) (requirements : option (list string))
    (requirements_file : option string) (no_use_wheel : bool)
  : outcome (list pyval) :=
  let head := ([PyStr (if below_8 (world st) then "install" else "download");
                PyStr "-d"; download_path (self st)]
               ++ (if no_use_wheel then [PyStr "--no-use-wheel"] else []))%list
  in
  match requirements, requirements_file with
  | Some rs, _ => Return (head ++ map PyStr rs)%list
  | None, Some f => Return (head ++ [PyStr "-r"; PyStr f])%list
  | None, None =>
      Raise (ValueError
               "Either requirements or requirements_file must be given.")
  end.

(** The events of one [download] call: the directory step's event, then the
    pip invocation if the call got that far. *)
Definition pip_events (st1 : state) (ok : outcome unit)
    (r : option (list string)) (f : option string) (n : bool) : list event :=
  match ok with
  | Return _ =>
      match built st1 r f n with
      | Return a => [EvPipMain a (snd (pip_main a (world st1)))]%list
      | Raise _ => []
      end
  | Raise _ => []
  end.

(** The directory [dir] of world [w] has exactly the children [ents]:
    [os.listdir] returns their names, and [os.path.isfile] of a child's path
    tells whether it is a regular file. *)
Definition directory_holds (w : W) (dir : string)
    (ents : list (string * kind)) : Prop :=
  os_listdir dir w = Return (map fst ents) /\
  forall n k, In (n, k) ents ->
    os_path_isfile (os_path_join dir n) w = is_regular k.

(** The paths of the regular files among the children of [dir]. *)
Definition regular_paths (dir : string) (ents : list (string * kind))
  : list string :=
  map (fun e => os_path_join dir (fst e))
      (filter (fun e => is_regular (snd e)) ents).

(** What a caller can do with an instance between two observations: call
    [download], iterate a generator it was given, or let time pass while the
    world outside changes. *)
Inductive call : Type :=
| CallDownload (requirements : option (list string))
    (requirements_file : option string) (no_use_wheel : bool)
| CallIterate
| Outside (f : W -> W).

Definition run_call (c : call) (st : state) : state :=
  match c with
  | CallDownload r f n => fst (download r f n st)
  | CallIterate => fst (_list_download_dir st)
  | Outside f => {| self := self st; world := f (world st);
                    trace := trace st |}
  end.

Definition run_calls (cs : list call) (st : state) : state :=
  fold_left (fun s c => run_call c s) cs st.

(** The event [ev] was made on behalf of destination [d]: no temporary
    directory is asked for, directories are created at [d] only, and pip is
    told [-d d]. *)
Definition uses_destination (d : string) (ev : event) : Prop :=
  match ev with
  | EvMkdtemp => False
  | EvMakedirs p => p = d
  | EvPipMain a _ =>
      nth_error a 1 = Some (PyStr "-d") /\ nth_error a 2 = Some (PyStr d)
  end.

(** From [st] to [st'] the destination stayed [d], and every event logged
    in between was made on its behalf. *)
Definition destination_kept (d : string) (st st' : state) : Prop :=
  download_path (self st') = PyStr d /\
  exists evs, trace st' = (trace st ++ evs)%list /\
              Forall (uses_destination d) evs.

(** The file-system call the directory step makes for an instance:
    [mkdtemp] when the destination is unset, [makedirs] of it otherwise. *)
Definition directory_event (d : PackageDownloader) : event :=
  match download_path d with
  | PyNone => EvMkdtemp
  | PyStr p => EvMakedirs p
  end.

Definition is_pip_event (ev : event) : bool :=
  match ev with EvPipMain _ _ => true | _ => false end.

Definition is_download_call (c : call) : bool :=
  match c with CallDownload _ _ _ => true | _ => false end.

(** One of [requirements] and [requirements_file] is not [None]. *)
Definition request_given (r : option (list string)) (f : option string)
  : bool :=
  match r, f with
  | None, None => false
  | _, _ => true
  end.

(** The events logged from [st] to a later state [st']. *)
Definition events_between (st st' : state) : list event :=
  skipn (length (trace st)) (trace st').

End Downloader.

(** ** A simulated platform

    A small, executable operating system and pip, used to run the model on
    concrete inputs.  Directories are named by the path the program uses for
    them; a directory entry is a (directory, name, kind) triple.  The
    simulated pip is a stub: it writes a fixed set of entries into the
    directory that follows [-d] in its arguments and returns a fixed
    status; when that directory does not exist it writes nothing and
    returns 1. *)
Module Sim.

Record World : Type := mkWorld {
  dirs : list string;
  entries : list (string * string * kind);
  denied : list string;
  tmp_usable : bool;
  tmp_count : nat;
  installed_pip : string;
  stub_writes : list (string * kind);
  stub_status : Z
}.

Definition mem (p : string) (l : list string) : bool :=
  existsb (String.eqb p) l.

(** *** Versions: final releases [N(.N)*] only.  Any other string parses to
    [None]; the simulation orders it first, as packaging orders the legacy
    versions it cannot parse. *)
Definition digit_of (c : ascii) : option N :=
  let n := N_of_ascii c in
  if (48 <=? n)%N && (n <=? 57)%N then Some (n - 48)%N else None.

Fixpoint parse_release (s : string) (cur : option N) (acc : list N)
  : option (list N) :=
  match s with
  | EmptyString =>
      match cur with
      | Some n => Some (rev (n :: acc))
      | None => None
      end
  | String c r =>
      match digit_of c with
      | Some d =>
          parse_release r
            (Some (match cur with Some n => 10 * n + d | None => d end)%N) acc
      | None =>
          if Ascii.eqb c "." then
            match cur with
            | Some n => parse_release r None (n :: acc)
            | None => None
            end
          else None
      end
  end.

Fixpoint drop_zeros (l : list N) : list N :=
  match l with
  | [] => []
  | (0%N) :: r => drop_zeros r
  | _ => l
  end.

(** The comparison key of a release: trailing zeros are not significant. *)
Definition release_key (l : list N) : list N := rev (drop_zeros (rev l)).

Fixpoint tuple_lt (a b : list N) : bool :=
  match a, b with
  | [], [] => false
  | [], _ :: _ => true
  | _ :: _, [] => false
  | x :: a', y :: b' =>
      if (x <? y)%N then true
      else if (y <? x)%N then false
      else tuple_lt a' b'
  end.

Definition sim_parse_version (s : string) : option (list N) :=
  parse_release s None [].

Definition sim_version_lt (a b : option (list N)) : bool :=
  match a, b with
  | Some x, Some y => tuple_lt (release_key x) (release_key y)
  | None, Some _ => true
  | _, None => false
  end.

(** *** File system *)
Definition sim_mkdtemp (w : World) : World * outcome string :=
  if tmp_usable w then
    let d := "/tmp/tmp" ++ NilZero.string_of_uint (Nat.to_uint (tmp_count w)) in
    ({| dirs := d :: dirs w; entries := entries w; denied := denied w;
        tmp_usable := tmp_usable w; tmp_count := S (tmp_count w);
        installed_pip := installed_pip w; stub_writes := stub_writes w;
        stub_status := stub_status w |}, Return d)
  else (w, Raise (OSError ENOENT)).

Definition sim_makedirs (p : string) (w : World) : World * option exn :=
  if mem p (dirs w) then (w, Some (OSError EEXIST))
  else if mem p (denied w) then (w, Some (OSError EACCES))
  else ({| dirs := p :: dirs w; entries := entries w; denied := denied w;
           tmp_usable := tmp_usable w; tmp_count := tmp_count w;
           installed_pip := installed_pip w; stub_writes := stub_writes w;
           stub_status := stub_status w |}, None).

Definition sim_listdir (p : string) (w : World) : outcome (list string) :=
  if mem p (dirs w)
  then Return (map (fun e => snd (fst e))
                 (filter (fun e => String.eqb (fst (fst e)) p) (entries w)))
  else Raise (OSError ENOENT).

Definition sim_isfile (p : string) (w : World) : bool :=
  existsb (fun e => String.eqb (os_path_join (fst (fst e)) (snd (fst e))) p
                    && is_regular (snd e)) (entries w).

(** *** The stub tool *)
Fixpoint dest_of (a : list pyval) : option string :=
  match a with
  | PyStr f :: ((PyStr d :: _) as r) =>
      if String.eqb f "-d" then Some d else dest_of r
  | _ :: r => dest_of r
  | [] => None
  end.

Definition sim_pip_main (a : list pyval) (w : World) : World * Z :=
  match dest_of a with
  | Some d =>
      if negb (mem d (dirs w)) then (w, 1%Z) else
      ({| dirs := dirs w;
          entries := (entries w
                      ++ map (fun nk => (d, fst nk, snd nk)) (stub_writes w))%list;
          denied := denied w; tmp_usable := tmp_usable w;
          tmp_count := tmp_count w; installed_pip := installed_pip w;
          stub_writes := stub_writes w; stub_status := stub_status w |},
       stub_status w)
  | None => (w, stub_status w)
  end.

#[global] Instance platform : Platform World := {|
  Version := option (list N);
  parse_version := sim_parse_version;
  version_lt := sim_version_lt;
  pip___version__ := installed_pip;
  pip_main := sim_pip_main;
  tempfile_mkdtemp := sim_mkdtemp;
  os_makedirs := sim_makedirs;
  os_listdir := sim_listdir;
  os_path_isfile := sim_isfile
|}.

(** A fresh machine: nothing on disk but what [ds] and [es] say. *)
Definition boot (ds : list string) (es : list (string * string * kind))
    (no : list string) (pipv : string) (writes : list (string * kind))
    (st : Z) : World :=
  {| dirs := ds; entries := es; denied := no; tmp_usable := true;
     tmp_count := 0; installed_pip := pipv; stub_writes := writes;
     stub_status := st |}.

Definition start (d : PackageDownloader) (w : World) : state :=
  {| self := d; world := w; trace := [] |}.

End Sim.


(** ** Concrete scenarios on the simulated platform *)

Module Run.

Local Open Scope list_scope.

(** A stub pip that writes two archives and a directory, and succeeds. *)
Definition two_archives : list (string * kind) :=
  [("mock-1.0.tar.gz", RegularFile);
   ("requests-1.2.1.tar.gz", RegularFile);
   ("build", Directory)].

(** An empty disk with pip [v] installed, whose stub writes [ws] and returns
    [s]. *)
Definition empty_disk (v : string) (ws : list (string * kind)) (s : Z)
  : Sim.World :=
  Sim.boot [] [] [] v ws s.

(** No destination configured, pip 7.1.2 that fails with status 1. *)
Definition failing : state :=
  Sim.start (PackageDownloader___init__ None) (empty_disk "7.1.2" [] 1).

(** No destination configured, pip 7.1.2 that succeeds. *)
Definition fresh : state :=
  Sim.start (PackageDownloader___init__ None)
    (empty_disk "7.1.2" two_archives 0).

(** The relative destination of the class docstring, pip 9.0.1. *)
Definition relative : state :=
  Sim.start (PackageDownloader___init__ (Some "~/.packages"))
    (empty_disk "9.0.1" two_archives 0).

(** A destination the process may not create. *)
Definition forbidden : state :=
  Sim.start (PackageDownloader___init__ (Some "/srv/packages"))
    (Sim.boot [] [] ["/srv/packages"] "9.0.1" two_archives 0).

(** No destination configured, and no usable place for temporary files. *)
Definition no_tmp : state :=
  Sim.start (PackageDownloader___init__ None)
    {| Sim.dirs := []; Sim.entries := []; Sim.denied := [];
       Sim.tmp_usable := false; Sim.tmp_count := 0;
       Sim.installed_pip := "9.0.1"; Sim.stub_writes := two_archives;
       Sim.stub_status := 0 |}.

(** After a first successful call on [fresh], the temporary directory is
    removed behind the instance's back. *)
Definition removed : state :=
  let st1 := fst (download (Some ["mock"%string]) None false fresh) in
  {| self := self st1; world := empty_disk "7.1.2" [] 0;
     trace := trace st1 |}.

End Run.

(** * Properties *)

Section DownloaderProperties.

Context {W : Type} {P : Platform W}.

Local Open Scope list_scope.

(** ** How each method runs *)

Lemma skipn_length_app {A} (l evs : list A) :
  skipn (length l) (l ++ evs) = evs.
Proof.
  induction l as [|x l IH]; simpl; auto.
Qed.

(** [_make_download_dir] when no destination is configured. *)
Lemma _make_download_dir_unset (st : @state W) :
  download_path (self st) = PyNone ->
  _make_download_dir st =
  match tempfile_mkdtemp (world st) with
  | (w, Return d) =>
      ({| self := {| download_path := PyStr d |}; world := w;
          trace := trace st ++ [EvMkdtemp] |}, Return tt)
  | (w, Raise e) =>
      ({| self := self st; world := w; trace := trace st ++ [EvMkdtemp] |},
       Raise e)
  end.
Proof.
  intros Hp. unfold _make_download_dir, bind, get_download_path.
  rewrite Hp. unfold call_mkdtemp, set_download_path.
  destruct (tempfile_mkdtemp (world st)) as [w [d|e]]; reflexivity.
Qed.

(** [_make_download_dir] when a destination is configured. *)
Lemma _make_download_dir_set (st : @state W) (p : string) :
  download_path (self st) = PyStr p ->
  _make_download_dir st =
  match os_makedirs p (world st) with
  | (w, r) =>
      ({| self := self st; world := w; trace := trace st ++ [EvMakedirs p] |},
       match r with
       | None => Return tt
       | Some e => if is_OSError e then Return tt else Raise e
       end)
  end.
Proof.
  intros Hp. unfold _make_download_dir, bind, get_download_path.
  rewrite Hp. unfold try_except_OSError, call_makedirs, ret.
  destruct (os_makedirs p (world st)) as [w [e|]]; try reflexivity.
  destruct (is_OSError e); reflexivity.
Qed.

(** The directory step logs exactly one event, a file-system one. *)
Lemma _make_download_dir_trace (st : @state W) :
  exists ev, trace (fst (_make_download_dir st)) = trace st ++ [ev]
             /\ is_fs_event ev = true.
Proof.
  destruct (download_path (self st)) as [|p] eqn:Hp.
  - rewrite (_make_download_dir_unset st Hp).
    exists EvMkdtemp.
    destruct (tempfile_mkdtemp (world st)) as [w [d|e]]; simpl; auto.
  - rewrite (_make_download_dir_set st p Hp).
    exists (EvMakedirs p).
    destruct (os_makedirs p (world st)) as [w r]; simpl; auto.
Qed.

(** When the directory step returns, the destination is a string. *)
Lemma _make_download_dir_resolves (st st1 : @state W) :
  _make_download_dir st = (st1, Return tt) ->
  exists d, download_path (self st1) = PyStr d.
Proof.
  destruct (download_path (self st)) as [|p] eqn:Hp.
  - rewrite (_make_download_dir_unset st Hp).
    destruct (tempfile_mkdtemp (world st)) as [w [d|e]]; intros H;
      inversion H; subst; simpl; eauto.
  - rewrite (_make_download_dir_set st p Hp).
    destruct (os_makedirs p (world st)) as [w r]; intros H;
      inversion H; subst; simpl; eauto.
Qed.

(** A resolved destination survives the directory step, however it ends. *)
Lemma _make_download_dir_keeps (st : @state W) (d : string) :
  download_path (self st) = PyStr d ->
  download_path (self (fst (_make_download_dir st))) = PyStr d.
Proof.
  intros Hp. rewrite (_make_download_dir_set st d Hp).
  destruct (os_makedirs d (world st)) as [w r]; simpl; auto.
Qed.

Lemma _build_args_run (st : @state W) r f n :
  _build_args r f n st = (st, built st r f n).
Proof.
  unfold _build_args, built, below_8, bind, get_pip_version,
    get_download_path, ret, raise.
  destruct n, r as [rs|], f as [file|]; simpl; reflexivity.
Qed.

Lemma call_pip_main_run (st : @state W) (a : list pyval) :
  call_pip_main a st =
  ({| self := self st; world := fst (pip_main a (world st));
      trace := trace st ++ [EvPipMain a (snd (pip_main a (world st)))] |},
   Return (snd (pip_main a (world st)))).
Proof.
  unfold call_pip_main. destruct (pip_main a (world st)); reflexivity.
Qed.

(** [download], step by step. *)
Lemma download_run (st : @state W) r f n :
  download r f n st =
  match _make_download_dir st with
  | (st1, Raise e) => (st1, Raise e)
  | (st1, Return _) =>
      match built st1 r f n with
      | Raise e => (st1, Raise e)
      | Return a =>
          let s := snd (pip_main a (world st1)) in
          let st2 := {| self := self st1;
                        world := fst (pip_main a (world st1));
                        trace := trace st1 ++ [EvPipMain a s] |} in
          if (s =? SUCCESS)%Z
          then (st2, Return _list_download_dir)
          else (st2,
                Raise (DownloadErr (PackageDownloadErr___init__ s a)))
      end
  end.
Proof.
  unfold download, bind at 1.
  destruct (_make_download_dir st) as [st1 [[]|e]]; auto.
  unfold bind at 1. rewrite _build_args_run.
  destruct (built st1 r f n) as [a|e]; auto.
  unfold bind. rewrite call_pip_main_run. cbv zeta.
  destruct (snd (pip_main a (world st1)) =? SUCCESS)%Z; reflexivity.
Qed.

Lemma _make_download_dir_events (st : @state W) :
  exists ev, is_fs_event ev = true /\
             events_of _make_download_dir st = [ev] /\
             trace (fst (_make_download_dir st)) = trace st ++ [ev].
Proof.
  destruct (_make_download_dir_trace st) as [ev [Ht Hfs]].
  exists ev. unfold events_of. rewrite Ht, skipn_length_app. auto.
Qed.

Lemma download_trace (st : @state W) r f n :
  trace (fst (download r f n st)) =
  trace (fst (_make_download_dir st))
  ++ pip_events (fst (_make_download_dir st)) (snd (_make_download_dir st))
       r f n.
Proof.
  rewrite download_run. unfold pip_events.
  destruct (_make_download_dir st) as [st1 [[]|e]]; simpl.
  - destruct (built st1 r f n) as [a|e]; simpl.
    + destruct (snd (pip_main a (world st1)) =? SUCCESS)%Z; reflexivity.
    + now rewrite app_nil_r.
  - now rewrite app_nil_r.
Qed.

Lemma download_events (st : @state W) r f n :
  events_of (download r f n) st =
  events_of _make_download_dir st
  ++ pip_events (fst (_make_download_dir st)) (snd (_make_download_dir st))
       r f n.
Proof.
  destruct (_make_download_dir_events st) as [ev [_ [He Ht]]].
  unfold events_of at 1. rewrite download_trace, Ht, He, <- app_assoc.
  apply skipn_length_app.
Qed.

(** A pip invocation among the events of a [download] call is the one the
    call made, after the directory step returned. *)
Lemma download_pip_event (st : @state W) r f n a s :
  In (EvPipMain a s) (events_of (download r f n) st) ->
  snd (_make_download_dir st) = Return tt /\
  built (fst (_make_download_dir st)) r f n = Return a /\
  s = snd (pip_main a (world (fst (_make_download_dir st)))).
Proof.
  rewrite download_events.
  destruct (_make_download_dir_events st) as [ev [Hfs [He _]]].
  rewrite He. intros [Heq | Hin].
  - subst ev. discriminate.
  - unfold pip_events in Hin.
    destruct (snd (_make_download_dir st)) as [[]|e]; [|contradiction].
    destruct (built (fst (_make_download_dir st)) r f n) as [a'|e];
      [|contradiction].
    destruct Hin as [Heq | []]. inversion Heq; subst. auto.
Qed.

(** ** The claims *)

(** C1.  When pip, invoked with the argument list [A], returns a status [S]
    other than [SUCCESS], [download] raises a [PackageDownloadErr] whose
    [status] is [S], whose [args] are [A] and whose [message] is
    "package failed download, exit S. Arguments: A", with [S] printed by
    [%d] and [A] by [%s]; the call returns no generator. *)
Theorem download_failure_raises_PackageDownloadErr
    (st : @state W) r f n (A : list pyval) (S : Z) :
  In (EvPipMain A S) (events_of (download r f n) st) ->
  S <> SUCCESS ->
  snd (download r f n st) =
    Raise (DownloadErr
             {| status := S;
                args := A;
                message := ("package failed download, exit "
                            ++ Fmt.percent_d S ++ ". Arguments: "
                            ++ Fmt.percent_s_list A)%string |})
  /\ (forall g, snd (download r f n st) <> Return g).
Proof.
  intros Hin HS.
  destruct (download_pip_event st r f n A S Hin) as [Hok [Hb Hs]].
  assert (Hres : snd (download r f n st) =
                 Raise (DownloadErr (PackageDownloadErr___init__ S A))).
  { rewrite download_run.
    destruct (_make_download_dir st) as [st1 o]; simpl in *.
    rewrite Hok, Hb. cbv zeta. rewrite <- Hs.
    apply Z.eqb_neq in HS. rewrite HS. reflexivity. }
  split.
  - exact Hres.
  - intros g Hg. rewrite Hres in Hg. discriminate.
Qed.

(** C2 (as amended).  When neither [requirements] nor [requirements_file] is
    given, [download] never invokes pip and never returns a generator: it
    runs the directory step, which makes one file-system call ([mkdtemp]
    when no destination is configured, [makedirs] otherwise), and ends in
    the state that step leaves; when that step returns, the call raises
    [ValueError] with the message of [_build_args]. *)
Theorem download_without_request (st : @state W) (n : bool) :
  fst (download None None n st) = fst (_make_download_dir st)
  /\ snd (download None None n st) =
       match snd (_make_download_dir st) with
       | Return _ =>
           Raise (ValueError
                    "Either requirements or requirements_file must be given.")
       | Raise e => Raise e
       end
  /\ events_of (download None None n) st =
       [match download_path (self st) with
        | PyNone => EvMkdtemp
        | PyStr p => EvMakedirs p
        end]
  /\ (forall a s, ~ In (EvPipMain a s) (events_of (download None None n) st))
  /\ (forall g, snd (download None None n st) <> Return g).
Proof.
  assert (Hev : events_of (download None None n) st =
                [match download_path (self st) with
                 | PyNone => EvMkdtemp
                 | PyStr p => EvMakedirs p
                 end]).
  { rewrite download_events. unfold pip_events, built.
    replace (match snd (_make_download_dir st) with
             | Return _ => [] | Raise _ => [] end) with (@nil event)
      by (destruct (snd (_make_download_dir st)); reflexivity).
    rewrite app_nil_r. unfold events_of.
    destruct (download_path (self st)) as [|p] eqn:Hp.
    - rewrite (_make_download_dir_unset st Hp).
      destruct (tempfile_mkdtemp (world st)) as [w [d|e]]; simpl;
        apply skipn_length_app.
    - rewrite (_make_download_dir_set st p Hp).
      destruct (os_makedirs p (world st)) as [w r]; simpl;
        apply skipn_length_app. }
  rewrite download_run. unfold built.
  destruct (_make_download_dir st) as [st1 [[]|e]]; simpl;
    (repeat split; auto; try discriminate);
    intros a s Hin; rewrite Hev in Hin; destruct Hin as [Heq|[]];
    destruct (download_path (self st)); discriminate.
Qed.

(** ** Listing the destination *)

Lemma list_loop_run (st : @state W) (dir : string) (names : list string) :
  list_loop dir names st =
  (st, Return (filter (fun p => os_path_isfile p (world st))
                 (map (os_path_join dir) names))).
Proof.
  induction names as [|x names IH]; simpl; auto.
  unfold bind, call_isfile. rewrite IH. unfold ret.
  destruct (os_path_isfile (os_path_join dir x) (world st)); reflexivity.
Qed.

Lemma filter_isfile_regular (w : W) (dir : string)
    (ents : list (string * kind)) :
  (forall n k, In (n, k) ents ->
     os_path_isfile (os_path_join dir n) w = is_regular k) ->
  filter (fun p => os_path_isfile p w)
    (map (os_path_join dir) (map fst ents)) = regular_paths dir ents.
Proof.
  unfold regular_paths.
  induction ents as [|[nm k] ents IH]; intros H; simpl; auto.
  rewrite (H nm k (or_introl eq_refl)).
  rewrite IH by (intros n' k' Hin; apply H; right; assumption).
  destruct (is_regular k); reflexivity.
Qed.

Lemma _list_download_dir_run (st : @state W) (d : string)
    (ents : list (string * kind)) :
  download_path (self st) = PyStr d ->
  directory_holds (world st) d ents ->
  _list_download_dir st = (st, Return (regular_paths d ents)).
Proof.
  intros Hp [Hl Hf].
  unfold _list_download_dir, bind, get_download_path. rewrite Hp.
  unfold call_listdir. rewrite Hl, list_loop_run.
  now rewrite (filter_isfile_regular _ _ _ Hf).
Qed.

Lemma In_regular_paths (d : string) (ents : list (string * kind)) (p : string) :
  In p (regular_paths d ents) <->
  exists nm, In (nm, RegularFile) ents /\ p = os_path_join d nm.
Proof.
  unfold regular_paths. rewrite in_map_iff. split.
  - intros [[nm k] [Hp Hin]]. apply filter_In in Hin as [Hin Hk].
    destruct k; try discriminate. exists nm. simpl in *. auto.
  - intros [nm [Hin Hp]]. exists (nm, RegularFile). split; auto.
    apply filter_In. auto.
Qed.

Lemma os_path_join_isabs (a b : string) :
  os_path_isabs a = true -> os_path_isabs (os_path_join a b) = true.
Proof.
  unfold os_path_isabs, os_path_join. intros Ha.
  destruct (startswith_sep b) eqn:Hb; auto.
  destruct a as [|c a]; [discriminate|].
  destruct (endswith_sep (String c a)); simpl in *; exact Ha.
Qed.

(** A [download] call that returns has a destination that is a string, and
    returns the generator of [_list_download_dir]. *)
Lemma download_returns (st st1 : @state W) r f n (g : generator) :
  download r f n st = (st1, Return g) ->
  g = _list_download_dir /\ exists d, download_path (self st1) = PyStr d.
Proof.
  rewrite download_run.
  destruct (_make_download_dir st) as [st0 [[]|e]] eqn:Hm; [|discriminate].
  destruct (_make_download_dir_resolves st st0 Hm) as [d Hd].
  destruct (built st0 r f n) as [a|e]; [|discriminate]. cbv zeta.
  destruct (snd (pip_main a (world st0)) =? SUCCESS)%Z; [|discriminate].
  intros H. inversion H; subst. simpl. eauto.
Qed.

(** C3 (as amended).  After a [download] call that returned, iterating the
    generator in a state where the destination [d] holds the children
    [ents] yields the paths [os.path.join(d, name)] of the regular files
    among them, one per regular file and in the order of the listing: as
    many paths as there are regular files, none of them the path of a
    subdirectory, nothing from below a subdirectory.  The paths are
    absolute when [d] is. *)
Theorem download_lists_regular_files
    (st st1 st2 : @state W) r f n (g : generator) (d : string)
    (ents : list (string * kind)) :
  download r f n st = (st1, Return g) ->
  download_path (self st1) = PyStr d ->
  self st2 = self st1 ->
  directory_holds (world st2) d ents ->
  g st2 = (st2, Return (regular_paths d ents))
  /\ length (regular_paths d ents)
     = length (filter (fun e => is_regular (snd e)) ents)
  /\ (forall p, In p (regular_paths d ents) <->
                exists nm, In (nm, RegularFile) ents /\ p = os_path_join d nm)
  /\ (forall nm, In (nm, Directory) ents ->
                 ~ In (os_path_join d nm) (regular_paths d ents))
  /\ (os_path_isabs d = true ->
      Forall (fun p => os_path_isabs p = true) (regular_paths d ents)).
Proof.
  intros Hd Hp Hself Hdir.
  destruct (download_returns _ _ _ _ _ _ Hd) as [Hg _]. subst g.
  assert (Hp2 : download_path (self st2) = PyStr d) by now rewrite Hself.
  split; [apply _list_download_dir_run; assumption|].
  split; [unfold regular_paths; apply length_map|].
  split; [apply In_regular_paths|].
  split.
  - intros nm Hin Hres. apply In_regular_paths in Hres as [nm' [Hin' Heq]].
    destruct Hdir as [_ Hf].
    pose proof (Hf nm Directory Hin) as H1.
    pose proof (Hf nm' RegularFile Hin') as H2.
    rewrite Heq, H2 in H1. discriminate.
  - intros Habs. apply Forall_forall. intros p Hin.
    apply In_regular_paths in Hin as [nm [_ ->]].
    now apply os_path_join_isabs.
Qed.

(** ** The argument list *)

Lemma built_shape (st : @state W) r f n (a : list pyval) :
  built st r f n = Return a ->
  nth_error a 0
    = Some (PyStr (if below_8 (world st) then "install" else "download"))
  /\ nth_error a 1 = Some (PyStr "-d")
  /\ nth_error a 2 = Some (download_path (self st)).
Proof.
  unfold built. destruct r as [rs|], f as [file|]; intros H;
    inversion H; subst; auto.
Qed.

(** C4.  The argument list [download] hands to pip is, in this order: the
    subcommand, [-d] and the destination directory, [--no-use-wheel] exactly
    when [no_use_wheel] is true, then the requirement strings as given or
    [-r] and the requirements file.  The flag, when present, is the fourth
    token: right after the destination and before every requirement
    token. *)
Theorem download_argument_order
    (st : @state W) r f n (A : list pyval) (S : Z) :
  In (EvPipMain A S) (events_of (download r f n) st) ->
  exists cmd d,
    download_path (self (fst (download r f n st))) = PyStr d
    /\ (cmd = "install" \/ cmd = "download")
    /\ ~ (r = None /\ f = None)
    /\ A = [PyStr cmd] ++ [PyStr "-d"; PyStr d]
           ++ (if n then [PyStr "--no-use-wheel"] else [])
           ++ match r, f with
              | Some rs, _ => map PyStr rs
              | None, Some file => [PyStr "-r"; PyStr file]
              | None, None => []
              end.
Proof.
  intros Hin.
  destruct (download_pip_event st r f n A S Hin) as [Hok [Hb _]].
  assert (Hself : self (fst (download r f n st))
                  = self (fst (_make_download_dir st))).
  { rewrite download_run.
    destruct (_make_download_dir st) as [st1 o]; simpl in *. subst o.
    rewrite Hb. cbv zeta.
    destruct (snd (pip_main A (world st1)) =? SUCCESS)%Z; reflexivity. }
  destruct (_make_download_dir st) as [st1 o] eqn:Hm; simpl in *. subst o.
  destruct (_make_download_dir_resolves st st1 Hm) as [d Hd].
  exists (if below_8 (world st1) then "install" else "download")%string, d.
  rewrite Hself. split; [exact Hd|].
  split; [destruct (below_8 (world st1)); auto|].
  unfold built in Hb. rewrite Hd in Hb.
  destruct r as [rs|], f as [file|]; inversion Hb; subst;
    (split; [intros [? ?]; discriminate|]);
    simpl; rewrite <- ?app_assoc; reflexivity.
Qed.

(** C5.  The subcommand, first in the argument list handed to pip, follows
    the version of the installed pip, read when the list is built: [install]
    when it is below 8.0.0 in the order of [parse_version], [download]
    when it is 8.0.0 or above. *)
Theorem subcommand_follows_pip_version
    (st : @state W) r f n (A : list pyval) (S : Z) :
  In (EvPipMain A S) (events_of (download r f n) st) ->
  let w := world (fst (_make_download_dir st)) in
  (version_lt (parse_version (pip___version__ w)) (parse_version "8.0.0")
     = true -> hd_error A = Some (PyStr "install"))
  /\ (version_lt (parse_version (pip___version__ w)) (parse_version "8.0.0")
       = false -> hd_error A = Some (PyStr "download")).
Proof.
  intros Hin w.
  destruct (download_pip_event st r f n A S Hin) as [_ [Hb _]].
  destruct (built_shape _ _ _ _ _ Hb) as [H0 _].
  fold w in H0. unfold below_8 in H0.
  destruct A as [|x A]; [discriminate|]. simpl in *.
  split; intros Hv; rewrite Hv in H0; exact H0.
Qed.

(** C6 (as amended).  With a configured destination [p], the directory step
    calls [os.makedirs(p)] once and ignores every [OSError] it raises,
    whatever its [errno]: the step then returns and the instance is as it
    was.  Only an exception that is not an [OSError] reaches the caller, and
    it does so unmodified. *)
Theorem make_download_dir_ignores_every_OSError
    (p : string) (w : W) (tr : list event) :
  let st := {| self := {| download_path := PyStr p |};
               world := w; trace := tr |} in
  events_of _make_download_dir st = [EvMakedirs p]
  /\ self (fst (_make_download_dir st)) = self st
  /\ world (fst (_make_download_dir st)) = fst (os_makedirs p w)
  /\ snd (_make_download_dir st) =
       match snd (os_makedirs p w) with
       | None => Return tt
       | Some (OSError _) => Return tt
       | Some e => Raise e
       end.
Proof.
  intros st. unfold events_of.
  rewrite (_make_download_dir_set st p eq_refl). simpl.
  destruct (os_makedirs p w) as [w' [e|]]; simpl;
    (repeat split; try apply skipn_length_app).
  destruct e; reflexivity.
Qed.

(** ** The destination over the life of an instance *)

Lemma download_self (st : @state W) r f n :
  self (fst (download r f n st)) = self (fst (_make_download_dir st)).
Proof.
  rewrite download_run.
  destruct (_make_download_dir st) as [st1 [[]|e]]; simpl; auto.
  destruct (built st1 r f n) as [a|e]; simpl; auto.
  destruct (snd (pip_main a (world st1)) =? SUCCESS)%Z; reflexivity.
Qed.

Lemma _list_download_dir_state (st : @state W) :
  fst (_list_download_dir st) = st.
Proof.
  unfold _list_download_dir, bind, get_download_path, call_listdir, raise.
  destruct (download_path (self st)) as [|d]; simpl; auto.
  destruct (os_listdir d (world st)) as [names|e]; simpl; auto.
  now rewrite list_loop_run.
Qed.

Lemma destination_kept_refl (d : string) (st : @state W) :
  download_path (self st) = PyStr d -> destination_kept d st st.
Proof.
  intros H. split; auto. exists []. rewrite app_nil_r. auto.
Qed.

Lemma destination_kept_trans (d : string) (st1 st2 st3 : @state W) :
  destination_kept d st1 st2 -> destination_kept d st2 st3 ->
  destination_kept d st1 st3.
Proof.
  intros [_ [e1 [H1 F1]]] [Hp [e2 [H2 F2]]]. split; auto.
  exists (e1 ++ e2). rewrite H2, H1, app_assoc. split; auto.
  apply Forall_app; auto.
Qed.

Lemma download_keeps_destination (st : @state W) (d : string) r f n :
  download_path (self st) = PyStr d ->
  destination_kept d st (fst (download r f n st)).
Proof.
  intros Hp. split.
  - rewrite download_self. now apply _make_download_dir_keeps.
  - rewrite download_trace.
    pose proof (_make_download_dir_keeps st d Hp) as Hk.
    rewrite (_make_download_dir_set st d Hp) in *.
    destruct (os_makedirs d (world st)) as [w o]; simpl in *.
    rewrite <- app_assoc. eexists; split; [reflexivity|].
    constructor; [reflexivity|].
    unfold pip_events.
    destruct (match o with
              | None => Return tt
              | Some e => if is_OSError e then Return tt else Raise e
              end); [|constructor].
    match goal with |- context [built ?s r f n] =>
      destruct (built s r f n) as [args0|e0] eqn:Hb end; [|constructor].
    destruct (built_shape _ _ _ _ _ Hb) as [_ [H1 H2]]. simpl in H2.
    rewrite Hp in H2. constructor; [split; assumption|constructor].
Qed.

Lemma run_call_keeps_destination (c : call) (st : @state W) (d : string) :
  download_path (self st) = PyStr d ->
  destination_kept d st (run_call c st).
Proof.
  intros Hp. destruct c as [r f n| |g]; simpl.
  - now apply download_keeps_destination.
  - rewrite _list_download_dir_state. now apply destination_kept_refl.
  - split; auto. exists []. simpl. rewrite app_nil_r. auto.
Qed.

Lemma run_calls_keep_destination (cs : list call) (st : @state W) (d : string) :
  download_path (self st) = PyStr d ->
  destination_kept d st (run_calls cs st).
Proof.
  revert st. induction cs as [|c cs IH]; intros st Hp; simpl.
  - now apply destination_kept_refl.
  - pose proof (run_call_keeps_destination c st d Hp) as Hc.
    eapply destination_kept_trans; [exact Hc|].
    apply IH. exact (proj1 Hc).
Qed.

(** C7.  Once the destination of an instance is a directory [d], no
    sequence of later calls changes it: after any number of [download]
    calls, whatever their arguments and however they end, of iterations of
    returned generators and of changes of the world outside, it is still
    [d], and every [makedirs] and every pip invocation made meanwhile was
    for [d].  This holds from a destination given to the constructor, and
    from the temporary directory that the first [download] call adopts when
    none was given. *)
Theorem destination_never_changes (cs : list call) (st : @state W) (d : string) :
  (download_path (self st) = PyStr d ->
   destination_kept d st (run_calls cs st))
  /\ (forall r f n w,
        download_path (self st) = PyNone ->
        tempfile_mkdtemp (world st) = (w, Return d) ->
        download_path (self (fst (download r f n st))) = PyStr d
        /\ destination_kept d (fst (download r f n st))
             (run_calls cs (fst (download r f n st)))).
Proof.
  split.
  - apply run_calls_keep_destination.
  - intros r f n w Hp Ht.
    assert (Hd : download_path (self (fst (download r f n st))) = PyStr d).
    { rewrite download_self, (_make_download_dir_unset st Hp), Ht.
      reflexivity. }
    split; [exact Hd|]. now apply run_calls_keep_destination.
Qed.

(** ** Requests outside the contract *)

(** C8.  When both [requirements] and [requirements_file] are given,
    [_build_args] raises nothing: the requirement strings follow the
    destination (and the flag), and the file is ignored.  The argument list
    and the whole [download] call are the same as without the file, and
    [-r] is among the arguments only if the caller put it there. *)
Theorem requirements_take_precedence
    (st : @state W) (rs : list string) (file : string) (n : bool) :
  _build_args (Some rs) (Some file) n st =
    (st, Return ([PyStr (if below_8 (world st) then "install" else "download");
                  PyStr "-d"; download_path (self st)]
                 ++ (if n then [PyStr "--no-use-wheel"] else [])
                 ++ map PyStr rs))
  /\ _build_args (Some rs) (Some file) n st = _build_args (Some rs) None n st
  /\ download (Some rs) (Some file) n st = download (Some rs) None n st
  /\ (~ In "-r"%string rs -> download_path (self st) <> PyStr "-r" ->
      forall a, snd (_build_args (Some rs) (Some file) n st) = Return a ->
                ~ In (PyStr "-r") a).
Proof.
  split; [|split; [|split]].
  - rewrite _build_args_run. unfold built. now rewrite <- app_assoc.
  - now rewrite !_build_args_run.
  - now rewrite !download_run.
  - intros Hrs Hp a. rewrite _build_args_run. simpl. intros Ha.
    inversion Ha; subst. clear Ha. intros Hin.
    destruct Hin as [H|[H|[H|Hin]]]; try discriminate.
    + destruct (below_8 (world st)); discriminate.
    + now apply Hp.
    + apply in_app_or in Hin as [Hin|Hin].
      * destruct n; simpl in Hin; [destruct Hin as [H|[]]; discriminate|].
        destruct Hin.
      * apply in_map_iff in Hin as [x [Hx Hin]]. inversion Hx; subst. auto.
Qed.

(** C9.  An empty list of requirements is accepted: [_build_args] raises
    its [ValueError] exactly when both arguments are [None], and for the
    empty list without a file it returns the subcommand, [-d], the
    destination and the optional flag, nothing more; once the directory
    step has returned, [download] hands that list to pip. *)
Theorem empty_requirements_list_is_accepted (st : @state W) (n : bool) :
  _build_args (Some []) None n st =
    (st, Return ([PyStr (if below_8 (world st) then "install" else "download");
                  PyStr "-d"; download_path (self st)]
                 ++ (if n then [PyStr "--no-use-wheel"] else [])))
  /\ (forall r f, (exists msg, snd (_build_args r f n st)
                              = Raise (ValueError msg))
                  <-> (r = None /\ f = None))
  /\ (snd (_make_download_dir st) = Return tt ->
      let st1 := fst (_make_download_dir st) in
      exists S,
        In (EvPipMain
              ([PyStr (if below_8 (world st1) then "install" else "download");
                PyStr "-d"; download_path (self st1)]
               ++ (if n then [PyStr "--no-use-wheel"] else [])) S)
           (events_of (download (Some []) None n) st)).
Proof.
  split; [|split].
  - rewrite _build_args_run. unfold built. simpl map. now rewrite app_nil_r.
  - intros r f. rewrite _build_args_run. unfold built. simpl.
    destruct r as [rs|], f as [file|]; split;
      try (intros [msg H]; discriminate);
      try (intros [H1 H2]; discriminate); eauto.
  - intros Hok st1. rewrite download_events. unfold pip_events.
    rewrite Hok. fold st1. unfold built. simpl map. rewrite app_nil_r.
    eexists. apply in_or_app. right. left. reflexivity.
Qed.

(** C10.  The argument list is a function of the destination, the
    requirements, the requirements file, the flag and the version of the
    installed pip: two calls of [_build_args] that agree on these five end
    the same way, with equal lists, whatever else differs between the two
    states. *)
Theorem build_args_deterministic
    (st1 st2 : @state W) (r1 r2 : option (list string)) (f1 f2 : option string)
    (n1 n2 : bool) :
  download_path (self st1) = download_path (self st2) ->
  r1 = r2 -> f1 = f2 -> n1 = n2 ->
  pip___version__ (world st1) = pip___version__ (world st2) ->
  snd (_build_args r1 f1 n1 st1) = snd (_build_args r2 f2 n2 st2).
Proof.
  intros Hp -> -> -> Hv. rewrite !_build_args_run. unfold built, below_8.
  simpl. now rewrite Hp, Hv.
Qed.

(** * Further properties of the module *)

(** ** One call of [download] *)

Lemma _make_download_dir_directory_event (st : @state W) :
  events_of _make_download_dir st = [directory_event (self st)].
Proof.
  unfold events_of, directory_event.
  destruct (download_path (self st)) as [|p] eqn:Hp.
  - rewrite (_make_download_dir_unset st Hp).
    destruct (tempfile_mkdtemp (world st)) as [w [d|e]]; simpl;
      apply skipn_length_app.
  - rewrite (_make_download_dir_set st p Hp).
    destruct (os_makedirs p (world st)) as [w o]; simpl;
      apply skipn_length_app.
Qed.

Lemma built_request (st : @state W) r f n :
  (request_given r f = true -> exists a, built st r f n = Return a)
  /\ (request_given r f = false ->
      built st r f n =
        Raise (ValueError
                 "Either requirements or requirements_file must be given.")).
Proof.
  unfold built. destruct r as [rs|], f as [file|]; simpl; split;
    intros H; try discriminate; eauto.
Qed.

(** The events of one call: the directory step's, then at most one pip
    invocation. *)
Lemma download_events_cases (st : @state W) r f n :
  events_of (download r f n) st = [directory_event (self st)]
  \/ exists a s, events_of (download r f n) st
                 = [directory_event (self st); EvPipMain a s].
Proof.
  rewrite download_events, _make_download_dir_directory_event.
  unfold pip_events.
  destruct (snd (_make_download_dir st)) as [[]|e]; auto.
  destruct (built (fst (_make_download_dir st)) r f n) as [a|e]; auto.
  right. simpl. eauto.
Qed.

(** X1.  A [download] call makes its file-system call first ([mkdtemp]
    for an unset destination, [makedirs] of the destination otherwise) and
    invokes pip after it, at most once: there is no retry.  Pip is invoked
    exactly when the directory step returned and a request was given. *)
Theorem download_event_order (st : @state W) r f n :
  (events_of (download r f n) st = [directory_event (self st)]
   \/ exists a s, events_of (download r f n) st
                  = [directory_event (self st); EvPipMain a s])
  /\ ((exists a s, In (EvPipMain a s) (events_of (download r f n) st))
      <-> (snd (_make_download_dir st) = Return tt
           /\ request_given r f = true)).
Proof.
  split.
  - apply download_events_cases.
  - split.
    + intros [a [s Hin]].
      destruct (download_pip_event st r f n a s Hin) as [Hok [Hb _]].
      split; [exact Hok|].
      destruct (request_given r f) eqn:Hr; auto.
      rewrite (proj2 (built_request _ r f n) Hr) in Hb. discriminate.
    + intros [Hok Hr].
      destruct (proj1 (built_request (fst (_make_download_dir st)) r f n) Hr)
        as [a Ha].
      exists a, (snd (pip_main a (world (fst (_make_download_dir st))))).
      rewrite download_events. unfold pip_events. rewrite Hok, Ha.
      apply in_or_app. right. left. reflexivity.
Qed.

(** X2.  [download] returns a generator exactly when it invoked pip and
    pip returned [SUCCESS]: no generator without a successful run of the
    tool, and no successful run that ends in an exception. *)
Theorem download_returns_iff_pip_succeeds (st : @state W) r f n :
  (exists g, snd (download r f n st) = Return g)
  <-> (exists a, In (EvPipMain a SUCCESS) (events_of (download r f n) st)).
Proof.
  split.
  - intros [g Hg]. rewrite download_events. unfold pip_events.
    rewrite download_run in Hg.
    destruct (_make_download_dir st) as [st1 [[]|e]]; simpl in *;
      [|discriminate].
    destruct (built st1 r f n) as [a|e]; [|discriminate]. cbv zeta in Hg.
    destruct (snd (pip_main a (world st1)) =? SUCCESS)%Z eqn:Hs;
      [|discriminate].
    apply Z.eqb_eq in Hs. exists a. apply in_or_app. right. left.
    now rewrite Hs.
  - intros [a Hin].
    destruct (download_pip_event st r f n a SUCCESS Hin) as [Hok [Hb Hs]].
    rewrite download_run.
    destruct (_make_download_dir st) as [st1 o]; simpl in *.
    rewrite Hok, Hb. cbv zeta. rewrite <- Hs. simpl. eauto.
Qed.

(** X3.  When no destination is configured and [mkdtemp] raises, [download]
    raises the same exception; the destination stays unset, so that a later
    call asks for a temporary directory again, and neither [makedirs] nor
    pip has been called. *)
Theorem download_mkdtemp_failure
    (st : @state W) r f n (w : W) (e : exn) :
  download_path (self st) = PyNone ->
  tempfile_mkdtemp (world st) = (w, Raise e) ->
  snd (download r f n st) = Raise e
  /\ download_path (self (fst (download r f n st))) = PyNone
  /\ world (fst (download r f n st)) = w
  /\ events_of (download r f n) st = [EvMkdtemp]
  /\ directory_event (self (fst (download r f n st))) = EvMkdtemp.
Proof.
  intros Hp Ht.
  assert (Hev : events_of (download r f n) st = [EvMkdtemp]).
  { rewrite download_events, _make_download_dir_directory_event.
    unfold directory_event. rewrite Hp.
    rewrite (_make_download_dir_unset st Hp), Ht. reflexivity. }
  rewrite download_run, (_make_download_dir_unset st Hp), Ht in *.
  simpl. unfold directory_event. simpl. rewrite Hp. auto.
Qed.

(** X4.  With a configured destination [p] and a request, whatever
    [OSError] [makedirs] raises, [download] goes on: it invokes pip once,
    with [-d p], in the world [makedirs] left, and the [OSError] is never
    what the call raises. *)
Theorem download_goes_on_after_makedirs_OSError
    (st : @state W) (p : string) r f n (w : W) (errno : Z) :
  download_path (self st) = PyStr p ->
  os_makedirs p (world st) = (w, Some (OSError errno)) ->
  request_given r f = true ->
  (exists a, events_of (download r f n) st
              = [EvMakedirs p; EvPipMain a (snd (pip_main a w))]
             /\ nth_error a 1 = Some (PyStr "-d")
             /\ nth_error a 2 = Some (PyStr p))
  /\ (forall k, snd (download r f n st) <> Raise (OSError k)).
Proof.
  intros Hp Hm Hr.
  pose proof (_make_download_dir_set st p Hp) as Hs. rewrite Hm in Hs.
  simpl in Hs.
  destruct (proj1 (built_request (fst (_make_download_dir st)) r f n) Hr)
    as [a Ha].
  split.
  - exists a. rewrite download_events, _make_download_dir_directory_event.
    unfold directory_event, pip_events. rewrite Hp, Hs in *. simpl in *.
    rewrite Ha. destruct (built_shape _ _ _ _ _ Ha) as [_ [H1 H2]].
    simpl in H2. rewrite Hp in H2. auto.
  - intros k. rewrite download_run, Hs. rewrite Hs in Ha. simpl in Ha.
    rewrite Ha. cbv zeta. simpl.
    destruct (snd (pip_main a w) =? SUCCESS)%Z; discriminate.
Qed.


(** ** Iterating the generator *)

(** X6.  A failure to list the destination is not an error of [download]:
    the call has returned its generator, and the exception of
    [os.listdir] is raised, unmodified, when the caller iterates; nothing
    is yielded and nothing changes. *)
Theorem listing_failure_is_raised_on_iteration
    (st st1 st2 : @state W) r f n (g : generator) (d : string) (e : exn) :
  download r f n st = (st1, Return g) ->
  download_path (self st1) = PyStr d ->
  self st2 = self st1 ->
  os_listdir d (world st2) = Raise e ->
  g st2 = (st2, Raise e).
Proof.
  intros Hd Hp Hself Hl.
  destruct (download_returns _ _ _ _ _ _ Hd) as [-> _].
  unfold _list_download_dir, bind, get_download_path, call_listdir.
  rewrite Hself, Hp, Hl. reflexivity.
Qed.

Lemma prefix_app (a b : string) : String.prefix a (a ++ b)%string = true.
Proof.
  induction a as [|c a IH]; simpl.
  - destruct b; reflexivity.
  - destruct (ascii_dec c c) as [_|Hc]; [exact IH|now destruct Hc].
Qed.

Lemma os_path_join_prefix (a b : string) :
  startswith_sep b = false -> String.prefix a (os_path_join a b) = true.
Proof.
  unfold os_path_join. intros ->.
  destruct (match a with
            | EmptyString => true
            | String _ _ => endswith_sep a
            end); apply prefix_app.
Qed.

(** X7.  When the names that [os.listdir] returns do not begin with a
    separator, every path the generator yields lies under the destination:
    it is [os.path.join] of the destination and a listed name, it begins
    with the destination, and [os.path.isfile] held of it when it was
    tested.  No more paths are yielded than names were listed. *)
Theorem yielded_paths_lie_under_destination
    (st st1 st2 : @state W) r f n (g : generator) (d : string)
    (names : list string) :
  download r f n st = (st1, Return g) ->
  download_path (self st1) = PyStr d ->
  self st2 = self st1 ->
  os_listdir d (world st2) = Return names ->
  Forall (fun nm => startswith_sep nm = false) names ->
  exists ps,
    g st2 = (st2, Return ps)
    /\ length ps <= length names
    /\ Forall (fun p => String.prefix d p = true
                        /\ os_path_isfile p (world st2) = true
                        /\ exists nm, In nm names /\ p = os_path_join d nm)
         ps.
Proof.
  intros Hd Hp Hself Hl Hn.
  destruct (download_returns _ _ _ _ _ _ Hd) as [-> _].
  eexists. split; [|split].
  - unfold _list_download_dir, bind, get_download_path, call_listdir.
    rewrite Hself, Hp, Hl. apply list_loop_run.
  - etransitivity; [apply filter_length_le|]. now rewrite length_map.
  - apply Forall_forall. intros p Hin.
    apply filter_In in Hin as [Hin Hf].
    apply in_map_iff in Hin as [nm [<- Hnm]].
    rewrite Forall_forall in Hn.
    split; [apply os_path_join_prefix; auto|]. split; eauto.
Qed.

(** ** Requirements that look like options *)

(** X8.  The requirement strings are handed to pip as they are, so options
    among them are not told from the options [download] writes itself:
    [download(['-r', file])] runs exactly as
    [download(requirements_file=file)], and a leading ['--no-use-wheel']
    requirement exactly as [no_use_wheel=True]. *)
Theorem requirements_are_not_told_from_options
    (st : @state W) (rs : list string) (file : string)
    (f : option string) (n : bool) :
  download (Some ["-r"%string; file]) None n st
    = download None (Some file) n st
  /\ download (Some ("--no-use-wheel"%string :: rs)) f false st
     = download (Some rs) f true st.
Proof.
  split; rewrite !download_run;
    destruct (_make_download_dir st) as [st1 [[]|e]]; reflexivity.
Qed.

(** ** Counting calls *)

Lemma run_call_accounting (c : call) (st : @state W) :
  exists evs,
    trace (run_call c st) = trace st ++ evs
    /\ length (filter is_fs_event evs)
       = (if is_download_call c then 1 else 0)
    /\ length (filter is_pip_event evs)
       <= (if is_download_call c then 1 else 0).
Proof.
  destruct c as [r f n| |h]; simpl.
  - exists (events_of (download r f n) st). split.
    + unfold events_of at 1. rewrite download_trace.
      destruct (_make_download_dir_events st) as [ev [_ [_ Ht]]].
      rewrite Ht, <- app_assoc, skipn_length_app. reflexivity.
    + destruct (download_events_cases st r f n) as [-> | [a [s ->]]];
        unfold directory_event; destruct (download_path (self st));
        simpl; auto.
  - exists []. rewrite _list_download_dir_state, app_nil_r. simpl. auto.
  - exists []. rewrite app_nil_r. simpl. auto.
Qed.

(** X9.  Over any sequence of calls on an instance ([download] calls,
    iterations, changes outside), the log only grows; it gains exactly one
    file-system call per [download] call and at most one pip invocation
    per [download] call.  Iterating a generator creates nothing and runs
    nothing. *)
Theorem run_calls_accounting (cs : list call) (st : @state W) :
  trace (run_calls cs st) = trace st ++ events_between st (run_calls cs st)
  /\ length (filter is_fs_event (events_between st (run_calls cs st)))
     = length (filter is_download_call cs)
  /\ length (filter is_pip_event (events_between st (run_calls cs st)))
     <= length (filter is_download_call cs).
Proof.
  assert (H : exists evs,
             trace (run_calls cs st) = trace st ++ evs
             /\ length (filter is_fs_event evs)
                = length (filter is_download_call cs)
             /\ length (filter is_pip_event evs)
                <= length (filter is_download_call cs)).
  { revert st. induction cs as [|c cs IH]; intros st; simpl.
    - exists []. rewrite app_nil_r. simpl. auto.
    - destruct (run_call_accounting c st) as [e1 [H1 [F1 P1]]].
      destruct (IH (run_call c st)) as [e2 [H2 [F2 P2]]].
      exists (e1 ++ e2). rewrite H2, H1, app_assoc.
      rewrite !filter_app, !length_app.
      destruct (is_download_call c); simpl in *; split; auto; lia. }
  destruct H as [evs [Ht [Hf Hp]]].
  unfold events_between. rewrite Ht, skipn_length_app. auto.
Qed.

End DownloaderProperties.

(** * The claims on concrete runs *)

Local Open Scope list_scope.

(** C1 at work: pip 7.1.2 fails with status 1 on [download(['mock'])]. *)
Lemma download_failure_raises_PackageDownloadErr_witness :
  snd (download (Some ["mock"%string]) None false Run.failing) =
    Raise (DownloadErr
             {| status := 1;
                args := [PyStr "install"; PyStr "-d"; PyStr "/tmp/tmp0";
                         PyStr "mock"];
                message := "package failed download, exit 1. Arguments: ['install', '-d', '/tmp/tmp0', 'mock']" |})
  /\ (forall g, snd (download (Some ["mock"%string]) None false Run.failing)
                <> Return g).
Proof.
  apply (download_failure_raises_PackageDownloadErr Run.failing
           (Some ["mock"%string]) None false
           [PyStr "install"; PyStr "-d"; PyStr "/tmp/tmp0"; PyStr "mock"] 1).
  - vm_compute. right. left. reflexivity.
  - discriminate.
Defined.

(** C2, as stated, fails: with no destination configured and no request,
    the call has adopted a temporary directory, created on disk, by the
    time it raises. *)
Lemma download_without_request_touches_disk :
  let st1 := fst (download None None false Run.fresh) in
  events_of (download None None false) Run.fresh = [EvMkdtemp]
  /\ download_path (self st1) = PyStr "/tmp/tmp0"
  /\ Sim.dirs (world st1) = ["/tmp/tmp0"%string]
  /\ ~ (events_of (download None None false) Run.fresh = []
        /\ world st1 = world Run.fresh
        /\ self st1 = self Run.fresh).
Proof.
  vm_compute. repeat split; try reflexivity.
  intros [H _]. discriminate H.
Qed.

(** C3, as stated, fails: with the relative destination of the class
    docstring, the paths that are yielded are relative. *)
Lemma download_paths_relative_counterexample :
  let st1 := fst (download (Some ["mock"%string]) None false Run.relative) in
  snd (download (Some ["mock"%string]) None false Run.relative)
    = Return _list_download_dir
  /\ snd (_list_download_dir st1)
     = Return ["~/.packages/mock-1.0.tar.gz"%string;
               "~/.packages/requests-1.2.1.tar.gz"%string]
  /\ ~ Forall (fun p => os_path_isabs p = true)
         ["~/.packages/mock-1.0.tar.gz"%string;
          "~/.packages/requests-1.2.1.tar.gz"%string].
Proof.
  split; [reflexivity|]. split; [vm_compute; reflexivity|].
  intros H. inversion H as [|x l Hx Hl]. vm_compute in Hx. discriminate Hx.
Qed.

Lemma two_archives_in_tmp0 :
  directory_holds
    (world (fst (download (Some ["mock"%string; "requests==1.2.1"%string])
                   None false Run.fresh)))
    "/tmp/tmp0" Run.two_archives.
Proof.
  split; [vm_compute; reflexivity|].
  intros n k Hin. simpl in Hin.
  destruct Hin as [H|[H|[H|[]]]]; inversion H; subst; vm_compute;
    reflexivity.
Defined.

(** C3 at work: the first scenario of the specification.  No destination
    is configured, the stub writes two archives and a directory; iterating
    the generator yields the two archives. *)
Lemma download_lists_regular_files_witness :
  let st1 := fst (download (Some ["mock"%string; "requests==1.2.1"%string])
                    None false Run.fresh) in
  _list_download_dir st1 =
    (st1, Return ["/tmp/tmp0/mock-1.0.tar.gz"%string;
                  "/tmp/tmp0/requests-1.2.1.tar.gz"%string])
  /\ length (regular_paths "/tmp/tmp0" Run.two_archives) = 2
  /\ ~ In (os_path_join "/tmp/tmp0" "build")
         (regular_paths "/tmp/tmp0" Run.two_archives)
  /\ Forall (fun p => os_path_isabs p = true)
       (regular_paths "/tmp/tmp0" Run.two_archives).
Proof.
  intros st1.
  destruct (download_lists_regular_files Run.fresh st1 st1
              (Some ["mock"%string; "requests==1.2.1"%string]) None false
              _list_download_dir "/tmp/tmp0" Run.two_archives)
    as [Hg [Hlen [_ [Hdir Habs]]]].
  - vm_compute. reflexivity.
  - reflexivity.
  - reflexivity.
  - exact two_archives_in_tmp0.
  - split; [exact Hg|]. split; [exact Hlen|]. split.
    + apply Hdir. right. right. left. reflexivity.
    + apply Habs. reflexivity.
Defined.

(** C4 at work: a requirements file and [no_use_wheel]. *)
Lemma download_argument_order_witness :
  exists cmd d,
    download_path
      (self (fst (download None (Some "requirements.txt"%string) true
                    Run.fresh))) = PyStr d
    /\ (cmd = "install"%string \/ cmd = "download"%string)
    /\ ~ (@None (list string) = None /\ Some "requirements.txt"%string = None)
    /\ [PyStr "install"; PyStr "-d"; PyStr "/tmp/tmp0";
        PyStr "--no-use-wheel"; PyStr "-r"; PyStr "requirements.txt"]
       = [PyStr cmd] ++ [PyStr "-d"; PyStr d] ++ [PyStr "--no-use-wheel"]
         ++ [PyStr "-r"; PyStr "requirements.txt"].
Proof.
  apply (download_argument_order Run.fresh None
           (Some "requirements.txt"%string) true
           [PyStr "install"; PyStr "-d"; PyStr "/tmp/tmp0";
            PyStr "--no-use-wheel"; PyStr "-r"; PyStr "requirements.txt"] 0).
  vm_compute. right. left. reflexivity.
Defined.

(** C5 at work: pip 7.1.2 is given [install], pip 9.0.1 [download]. *)
Lemma subcommand_follows_pip_version_witness :
  hd_error [PyStr "install"; PyStr "-d"; PyStr "/tmp/tmp0"; PyStr "mock"]
    = Some (PyStr "install")
  /\ hd_error [PyStr "download"; PyStr "-d"; PyStr "~/.packages"; PyStr "mock"]
     = Some (PyStr "download").
Proof.
  split.
  - apply (subcommand_follows_pip_version Run.fresh (Some ["mock"%string])
             None false _ 0).
    + vm_compute. right. left. reflexivity.
    + reflexivity.
  - apply (subcommand_follows_pip_version Run.relative
             (Some ["mock"%string]) None false _ 0).
    + vm_compute. right. left. reflexivity.
    + reflexivity.
Defined.

(** C6, as stated, fails: [makedirs] raises a permission error, which is
    not the already-exists condition, and the directory step returns all
    the same; the call goes on to pip. *)
Lemma makedirs_permission_error_is_swallowed :
  snd (os_makedirs "/srv/packages" (world Run.forbidden))
    = Some (OSError EACCES)
  /\ EACCES <> EEXIST
  /\ snd (_make_download_dir Run.forbidden) = Return tt
  /\ snd (_make_download_dir Run.forbidden) <> Raise (OSError EACCES)
  /\ events_of (download (Some ["mock"%string]) None false) Run.forbidden
     = [EvMakedirs "/srv/packages";
        EvPipMain [PyStr "download"; PyStr "-d"; PyStr "/srv/packages";
                   PyStr "mock"] 1].
Proof.
  vm_compute. repeat split; try reflexivity; discriminate.
Qed.

(** C7 at work.  A destination given to the constructor, and a temporary
    directory adopted by a first call, through a second [download], an
    iteration, a change outside and a [download] without a request. *)
Lemma destination_never_changes_witness :
  let cs := [CallDownload (Some ["mock"%string]) None false;
             CallIterate;
             Outside (fun w => w);
             CallDownload None None true] in
  let first := fst (download (Some ["requests==1.2.1"%string]) None false
                      Run.fresh) in
  destination_kept "~/.packages" Run.relative (run_calls cs Run.relative)
  /\ download_path (self first) = PyStr "/tmp/tmp0"
  /\ destination_kept "/tmp/tmp0" first (run_calls cs first).
Proof.
  intros cs first. split.
  - apply (proj1 (destination_never_changes cs Run.relative "~/.packages")).
    reflexivity.
  - eapply (proj2 (destination_never_changes cs Run.fresh "/tmp/tmp0")
              (Some ["requests==1.2.1"%string]) None false).
    + reflexivity.
    + reflexivity.
Defined.

(** C8 at work: [download(['mock'], 'requirements.txt')]. *)
Lemma requirements_take_precedence_witness :
  snd (_build_args (Some ["mock"%string]) (Some "requirements.txt"%string)
         false Run.relative)
    = Return [PyStr "download"; PyStr "-d"; PyStr "~/.packages"; PyStr "mock"]
  /\ ~ In (PyStr "-r")
         [PyStr "download"; PyStr "-d"; PyStr "~/.packages"; PyStr "mock"].
Proof.
  split.
  - reflexivity.
  - apply (proj2 (proj2 (proj2
             (requirements_take_precedence Run.relative ["mock"%string]
                "requirements.txt" false)))).
    + intros [H|[]]. discriminate H.
    + discriminate.
    + reflexivity.
Defined.

(** C9 at work: [download([], no_use_wheel=True)] reaches pip. *)
Lemma empty_requirements_list_is_accepted_witness :
  exists S,
    In (EvPipMain [PyStr "install"; PyStr "-d"; PyStr "/tmp/tmp0";
                   PyStr "--no-use-wheel"] S)
       (events_of (download (Some []) None true) Run.fresh).
Proof.
  exact (proj2 (proj2 (empty_requirements_list_is_accepted Run.fresh true))
           eq_refl).
Defined.

(** C10 at work: the same request before and after a download that filled
    the destination. *)
Lemma build_args_deterministic_witness :
  snd (_build_args (Some ["mock"%string]) None true Run.relative)
  = snd (_build_args (Some ["mock"%string]) None true
           (fst (download (Some ["mock"%string]) None false Run.relative))).
Proof.
  apply build_args_deterministic; reflexivity.
Defined.

(** ** Further runs *)

(** The second scenario of the specification: a requirements file. *)
Example download_requirements_file :
  events_of (download None (Some "requirements.txt"%string) false) Run.fresh
  = [EvMkdtemp;
     EvPipMain [PyStr "install"; PyStr "-d"; PyStr "/tmp/tmp0"; PyStr "-r";
                PyStr "requirements.txt"] 0].
Proof. vm_compute. reflexivity. Qed.

(** A destination that exists already: [makedirs] raises, nothing is
    created, the call goes on. *)
Example download_into_existing_directory :
  let st := Sim.start (PackageDownloader___init__ (Some "/srv/packages"))
              (Sim.boot ["/srv/packages"%string] [] [] "8.0.0"
                 Run.two_archives 0) in
  snd (os_makedirs "/srv/packages" (world st)) = Some (OSError EEXIST)
  /\ snd (download (Some ["mock"%string]) None false st)
     = Return _list_download_dir
  /\ snd (_list_download_dir (fst (download (Some ["mock"%string]) None false
                                     st)))
     = Return ["/srv/packages/mock-1.0.tar.gz"%string;
               "/srv/packages/requests-1.2.1.tar.gz"%string].
Proof. vm_compute. repeat split; reflexivity. Qed.

(** The order of versions on the simulated platform, against 8.0.0. *)
Example versions_below_8 :
  map (fun v => Sim.sim_version_lt (Sim.sim_parse_version v)
                  (Sim.sim_parse_version "8.0.0"))
    ["1.5.6"; "7.1.2"; "7.9.99"; "8"; "8.0"; "8.0.0"; "8.0.1"; "9.0.1";
     "10.0.1"]%string
  = [true; true; true; false; false; false; false; false; false].
Proof. reflexivity. Qed.

(** The message of the exception, with [None] and a backslash among the
    arguments. *)
Example message_with_backslash :
  message (PackageDownloadErr___init__ (-2)
             [PyStr "download"; PyStr "-d"; PyNone; PyStr "a\b"])
  = "package failed download, exit -2. Arguments: ['download', '-d', None, 'a\\b']"%string.
Proof. reflexivity. Qed.

(** [os.path.join] as the generator uses it. *)
Example os_path_join_cases :
  os_path_join "/tmp/tmp0" "a.tar.gz" = "/tmp/tmp0/a.tar.gz"%string
  /\ os_path_join "pkgs/" "a.tar.gz" = "pkgs/a.tar.gz"%string
  /\ os_path_join "" "a.tar.gz" = "a.tar.gz"%string
  /\ os_path_join "pkgs" "/a.tar.gz" = "/a.tar.gz"%string.
Proof. repeat split. Qed.

(** ** The further properties on concrete runs *)

(** X3 at work: no usable place for temporary files. *)
Lemma download_mkdtemp_failure_witness :
  let st1 := fst (download (Some ["mock"%string]) None false Run.no_tmp) in
  snd (download (Some ["mock"%string]) None false Run.no_tmp)
    = Raise (OSError ENOENT)
  /\ download_path (self st1) = PyNone
  /\ world st1 = world Run.no_tmp
  /\ events_of (download (Some ["mock"%string]) None false) Run.no_tmp
     = [EvMkdtemp]
  /\ directory_event (self st1) = EvMkdtemp.
Proof.
  apply (download_mkdtemp_failure Run.no_tmp (Some ["mock"%string]) None
           false (world Run.no_tmp) (OSError ENOENT)); reflexivity.
Defined.

(** X4 at work: the destination may not be created; pip runs all the same
    and fails for want of the directory. *)
Lemma download_goes_on_after_makedirs_OSError_witness :
  (exists a,
     events_of (download (Some ["mock"%string]) None false) Run.forbidden
       = [EvMakedirs "/srv/packages";
          EvPipMain a (snd (pip_main a (world Run.forbidden)))]
     /\ nth_error a 1 = Some (PyStr "-d")
     /\ nth_error a 2 = Some (PyStr "/srv/packages"))
  /\ (forall k, snd (download (Some ["mock"%string]) None false
                       Run.forbidden) <> Raise (OSError k)).
Proof.
  apply (download_goes_on_after_makedirs_OSError Run.forbidden
           "/srv/packages" (Some ["mock"%string]) None false
           (world Run.forbidden) EACCES); reflexivity.
Defined.


(** X6 at work: the temporary directory is gone when the caller iterates. *)
Lemma listing_failure_is_raised_on_iteration_witness :
  _list_download_dir Run.removed = (Run.removed, Raise (OSError ENOENT)).
Proof.
  apply (listing_failure_is_raised_on_iteration Run.fresh
           (fst (download (Some ["mock"%string]) None false Run.fresh))
           Run.removed (Some ["mock"%string]) None false
           _list_download_dir "/tmp/tmp0" (OSError ENOENT)).
  - vm_compute. reflexivity.
  - reflexivity.
  - reflexivity.
  - reflexivity.
Defined.

(** X7 at work: two archives and a directory in the temporary directory. *)
Lemma yielded_paths_lie_under_destination_witness :
  let st1 := fst (download (Some ["mock"%string]) None false Run.fresh) in
  exists ps,
    _list_download_dir st1 = (st1, Return ps)
    /\ length ps <= 3
    /\ Forall (fun p => String.prefix "/tmp/tmp0" p = true
                        /\ os_path_isfile p (world st1) = true
                        /\ exists nm,
                             In nm ["mock-1.0.tar.gz"%string;
                                    "requests-1.2.1.tar.gz"%string;
                                    "build"%string]
                             /\ p = os_path_join "/tmp/tmp0" nm) ps.
Proof.
  intros st1.
  apply (yielded_paths_lie_under_destination Run.fresh st1 st1
           (Some ["mock"%string]) None false _list_download_dir "/tmp/tmp0"
           ["mock-1.0.tar.gz"%string; "requests-1.2.1.tar.gz"%string;
            "build"%string]).
  - vm_compute. reflexivity.
  - reflexivity.
  - reflexivity.
  - reflexivity.
  - repeat constructor.
Defined.

(** X9 at work on the calls of the run for C7: two [download] calls, two
    file-system calls, one pip invocation. *)
Example run_calls_accounting_example :
  events_between Run.relative
    (run_calls [CallDownload (Some ["mock"%string]) None false;
                CallIterate;
                Outside (fun w => w);
                CallDownload None None true] Run.relative)
  = [EvMakedirs "~/.packages";
     EvPipMain [PyStr "download"; PyStr "-d"; PyStr "~/.packages";
                PyStr "mock"] 0;
     EvMakedirs "~/.packages"].
Proof. vm_compute. reflexivity. Qed.
